(** * hatchrest: the polling coordinator and the base entity

    A shallow embedding of [custom_components/hatchrest/__init__.py]:
    [async_setup_entry], [async_unload_entry], [HatchRestCoordinator] and
    [HatchRestEntity].

    Python objects that are shared and mutated in place (the device handle
    returned by [connect_async]) live in a store and are named by a
    location; everything else is passed by value.  A Python call either
    returns a value or raises an exception, which is the [result] type. *)

From stdpp Require Import gmap strings list fin_maps.
From Stdlib Require Import String Ascii.

Local Open Scope string_scope.

(** ** Python exceptions *)

Module Python.

(** An exception class and its chain of base classes.  The exception
    classes of [builtins], [bleak] and [homeassistant] each derive from
    one base class, which is what [Derived] records. *)
Inductive py_class : Type :=
| BaseException
| Derived (name : string) (base : py_class).

#[global] Instance py_class_eq_dec : EqDecision py_class.
Proof. solve_decision. Defined.

Definition Exception : py_class := Derived "Exception" BaseException.
Definition OSError : py_class := Derived "OSError" Exception.
Definition TimeoutError : py_class := Derived "TimeoutError" OSError.
Definition LookupError : py_class := Derived "LookupError" Exception.
Definition KeyError : py_class := Derived "KeyError" LookupError.
Definition ValueError : py_class := Derived "ValueError" Exception.
Definition AssertionError : py_class := Derived "AssertionError" Exception.

(** [issubclass c t]: [t] is [c] or one of the bases of [c]. *)
Fixpoint issubclass (c t : py_class) : bool :=
  bool_decide (c = t) ||
  match c with
  | BaseException => false
  | Derived _ b => issubclass b t
  end.

(** An exception object: its class, its message ([args[0]]) and its
    [__cause__], set by [raise ... from ...]. *)
#[warnings="-register-all"]
Inductive py_exception : Type :=
| PyExc (cls : py_class) (msg : string) (cause : option py_exception).

Definition exc_class (e : py_exception) : py_class :=
  match e with PyExc c _ _ => c end.
Definition exc_msg (e : py_exception) : string :=
  match e with PyExc _ m _ => m end.
Definition exc_cause (e : py_exception) : option py_exception :=
  match e with PyExc _ _ c => c end.

Definition isinstance (e : py_exception) (c : py_class) : bool :=
  issubclass (exc_class e) c.

(** [raise cls(msg) from exc] builds this exception. *)
Definition raise_from (cls : py_class) (msg : string) (exc : py_exception)
  : py_exception :=
  PyExc cls msg (Some exc).

(** Length of the [__cause__] chain. *)
Fixpoint cause_depth (e : py_exception) : nat :=
  match e with
  | PyExc _ _ None => 0
  | PyExc _ _ (Some e') => S (cause_depth e')
  end.

(** The outcome of a call. *)
Inductive result (A : Type) : Type :=
| Return (a : A)
| Raise (e : py_exception).
Arguments Return {A} a.
Arguments Raise {A} e.

(** Truth value of a [str | None]: [None] and the empty string are false. *)
Definition truthy (v : option string) : bool :=
  match v with
  | None => false
  | Some s => negb (String.eqb s "")
  end.

(** [all(vs)] on a tuple of [str | None] values. *)
Definition all (vs : list (option string)) : bool := forallb truthy vs.

(** [str.upper] on ASCII text: the letters a-z are mapped to A-Z, every
    other character is kept. *)
Definition upper_char (c : ascii) : ascii :=
  let n := nat_of_ascii c in
  if (97 <=? n)%nat && (n <=? 122)%nat then ascii_of_nat (n - 32) else c.

Fixpoint upper (s : string) : string :=
  match s with
  | EmptyString => EmptyString
  | String c s' => String (upper_char c) (upper s')
  end.

(** [needle in haystack] for strings, as a proposition. *)
Definition contains (haystack needle : string) : Prop :=
  exists pre post, haystack = pre ++ needle ++ post.

End Python.

Import Python.

(** ** Exceptions of the libraries the integration uses *)

(** [bleak.exc.BleakError] *)
Definition BleakError : py_class := Derived "BleakError" Exception.
(** [homeassistant.exceptions] *)
Definition HomeAssistantError : py_class := Derived "HomeAssistantError" Exception.
Definition IntegrationError : py_class := Derived "IntegrationError" HomeAssistantError.
Definition ConfigEntryNotReady : py_class := Derived "ConfigEntryNotReady" IntegrationError.
(** [homeassistant.helpers.update_coordinator.UpdateFailed] *)
Definition UpdateFailed : py_class := Derived "UpdateFailed" HomeAssistantError.

(** [homeassistant.const.CONF_ADDRESS] *)
Definition CONF_ADDRESS : string := "address".
(** [homeassistant.helpers.device_registry.CONNECTION_BLUETOOTH] *)
Definition CONNECTION_BLUETOOTH : string := "bluetooth".
(** [PLATFORMS = [Platform.SWITCH]]; [Platform] is a string enumeration. *)
Definition PLATFORMS : list string := ["switch"].

(** ** The data model *)

(** [bleak.backends.device.BLEDevice], what discovery returns. *)
Record BLEDevice : Type := {
  ble_address : string;
  ble_name : option string
}.

(** [homeassistant.config_entries.ConfigEntry]: the fields setup reads. *)
Record ConfigEntry : Type := {
  entry_id : string;
  entry_unique_id : option string;
  entry_data : gmap string string
}.

(** A value of the [DeviceInfo] dictionary: a string (or [None]), or a set
    of pairs. *)
Inductive info_value : Type :=
| Str (s : option string)
| TupleSet (s : gset (string * option string)).

Section HatchRest.

(** The state a [PyHatchBabyRestAsync] handle holds is opaque to the
    integration. *)
Context (blob : Type) `{!Inhabited blob}.

(** [DOMAIN] comes from [.const]. *)
Variable DOMAIN : string.

(** [pyhatchbabyrest.PyHatchBabyRestAsync]: the attributes read here, and
    the state that [refresh_data] updates in place. *)
Record Device : Type := {
  dev_name : option string;
  dev_address : option string;
  dev_state : blob
}.

#[global] Instance Device_inhabited : Inhabited Device :=
  populate {| dev_name := None; dev_address := None; dev_state := inhabitant |}.

(** [HatchRestCoordinator]: [name], [update_interval] (seconds) and [data]
    are the fields of [DataUpdateCoordinator]; [device] is a reference to
    the handle in the store. *)
Record HatchRestCoordinator : Type := {
  co_name : string;
  co_update_interval : nat;
  co_data : option blob;
  co_unique_id : option string;
  co_device : positive
}.

(** [HatchRestEntity]: [_device] is the same reference as the
    coordinator's [device]. *)
Record HatchRestEntity : Type := {
  coordinator : HatchRestCoordinator;
  _device : positive;
  _attr_unique_id : option string
}.

(** The host: [hass.data], the connectable devices the bluetooth
    integration knows by address, and the platforms set up per entry. *)
Record HomeAssistant : Type := {
  hass_data : gmap string (gmap string HatchRestCoordinator);
  hass_bluetooth : gmap string BLEDevice;
  hass_platforms : gmap string (list string)
}.

(** What [async with async_timeout.timeout(10): await
    self.device.refresh_data()] did: the contents of the handle when
    control comes back, and the exception that leaves the block, if any. *)
Record refresh_response : Type := {
  rr_device : Device;
  rr_raised : option py_exception
}.

(** ** The host's operations used by setup *)

Definition async_ble_device_from_address (hass : HomeAssistant) (address : string)
  : option BLEDevice :=
  hass_bluetooth hass !! address.

Definition async_setup_platforms (hass : HomeAssistant) (entry : ConfigEntry)
    (platforms : list string) : HomeAssistant :=
  {| hass_data := hass_data hass;
     hass_bluetooth := hass_bluetooth hass;
     hass_platforms := <[entry_id entry := platforms]> (hass_platforms hass) |}.

(** ** HatchRestCoordinator *)

Definition HatchRestCoordinator__init__ (unique_id : option string)
    (device : positive) : HatchRestCoordinator :=
  {| co_name := "hatchrest";
     co_update_interval := 30;
     co_data := None;
     co_unique_id := unique_id;
     co_device := device |}.

Definition _async_update_data (self : HatchRestCoordinator)
    (σ : gmap positive Device) (r : refresh_response)
  : result (option blob) * HatchRestCoordinator * gmap positive Device :=
  let σ' := <[co_device self := rr_device r]> σ in
  match rr_raised r with
  | None => (Return None, self, σ')
  | Some exc =>
      if isinstance exc TimeoutError then
        (Raise (raise_from UpdateFailed
                  "Connection timed out while fetching data from device" exc),
         self, σ')
      else if isinstance exc BleakError then
        (Raise (raise_from UpdateFailed "Failed getting data from device" exc),
         self, σ')
      else (Raise exc, self, σ')
  end.

(** ** async_setup_entry *)

Definition async_setup_entry
    (connect_async : BLEDevice -> bool -> result Device)
    (hass : HomeAssistant) (σ : gmap positive Device) (entry : ConfigEntry)
  : result bool * HomeAssistant * gmap positive Device :=
  match entry_data entry !! CONF_ADDRESS with
  | None => (Raise (PyExc KeyError "'address'" None), hass, σ)
  | Some address =>
      match async_ble_device_from_address hass (upper address) with
      | None =>
          (Raise (PyExc ConfigEntryNotReady
                    ("Could not find Hatch Rest device with address " ++ address)
                    None),
           hass, σ)
      | Some ble_device =>
          match connect_async ble_device false with
          | Raise e => (Raise e, hass, σ)
          | Return handle =>
              let device := fresh (dom σ) in
              let σ' := <[device := handle]> σ in
              let coordinator :=
                HatchRestCoordinator__init__ (entry_unique_id entry) device in
              let domain_data := default ∅ (hass_data hass !! DOMAIN) in
              let hass' :=
                {| hass_data :=
                     <[DOMAIN := <[entry_id entry := coordinator]> domain_data]>
                       (hass_data hass);
                   hass_bluetooth := hass_bluetooth hass;
                   hass_platforms := hass_platforms hass |} in
              (Return true, async_setup_platforms hass' entry PLATFORMS, σ')
          end
      end
  end.

(** ** async_unload_entry *)

(** [hass.config_entries.async_unload_platforms]: [unloaded] is the host's
    answer; when the platforms unloaded, the entry has none set up. *)
Definition async_unload_platforms (unloaded : bool) (hass : HomeAssistant)
    (entry : ConfigEntry) (platforms : list string) : bool * HomeAssistant :=
  (unloaded,
   if unloaded then
     {| hass_data := hass_data hass;
        hass_bluetooth := hass_bluetooth hass;
        hass_platforms := delete (entry_id entry) (hass_platforms hass) |}
   else hass).

(** [hass.data[DOMAIN]] and [.pop(entry_id)] each raise [KeyError] on a
    missing key; the message is the key between quotes. *)
Definition async_unload_entry (unloaded : bool) (hass : HomeAssistant)
    (entry : ConfigEntry) : result bool * HomeAssistant :=
  let '(unload_ok, hass) := async_unload_platforms unloaded hass entry PLATFORMS in
  if unload_ok then
    match hass_data hass !! DOMAIN with
    | None => (Raise (PyExc KeyError ("'" ++ DOMAIN ++ "'") None), hass)
    | Some domain_data =>
        match domain_data !! entry_id entry with
        | None =>
            (Raise (PyExc KeyError ("'" ++ entry_id entry ++ "'") None), hass)
        | Some _ =>
            (Return unload_ok,
             {| hass_data :=
                  <[DOMAIN := delete (entry_id entry) domain_data]>
                    (hass_data hass);
                hass_bluetooth := hass_bluetooth hass;
                hass_platforms := hass_platforms hass |})
        end
    end
  else (Return unload_ok, hass).

(** ** HatchRestEntity *)

Definition HatchRestEntity__init__ (c : HatchRestCoordinator) : HatchRestEntity :=
  {| coordinator := c;
     _device := co_device c;
     _attr_unique_id := co_unique_id c |}.

(** The [unique_id] property of the host's [Entity] reads [_attr_unique_id]. *)
Definition unique_id (self : HatchRestEntity) : option string :=
  _attr_unique_id self.

Definition device_name (self : HatchRestEntity) (σ : gmap positive Device)
  : option string :=
  dev_name (σ !!! _device self).

Definition device_info (self : HatchRestEntity) (σ : gmap positive Device)
  : result (gmap string info_value) :=
  let address := dev_address (σ !!! _device self) in
  if negb (all [address; unique_id self]) then
    Raise (PyExc ValueError "Missing bluetooth address for hatch rest device" None)
  else if negb (truthy address) then Raise (PyExc AssertionError "" None)
  else if negb (truthy (unique_id self)) then Raise (PyExc AssertionError "" None)
  else
    Return
      (<["identifiers" := TupleSet {[ (DOMAIN, unique_id self) ]}]>
       (<["connections" := TupleSet {[ (CONNECTION_BLUETOOTH, address) ]}]>
        (<["name" := Str (device_name self σ)]>
         (<["manufacturer" := Str (Some "Hatch")]>
          (<["model" := Str (Some "Rest")]> ∅))))).

End HatchRest.

Arguments dev_name {blob} _.
Arguments dev_address {blob} _.
Arguments dev_state {blob} _.
Arguments co_name {blob} _.
Arguments co_update_interval {blob} _.
Arguments co_data {blob} _.
Arguments co_unique_id {blob} _.
Arguments co_device {blob} _.
Arguments coordinator {blob} _.
Arguments _device {blob} _.
Arguments _attr_unique_id {blob} _.
Arguments hass_data {blob} _.
Arguments hass_bluetooth {blob} _.
Arguments hass_platforms {blob} _.
Arguments rr_device {blob} _.
Arguments rr_raised {blob} _.
Arguments async_ble_device_from_address {blob} hass address.
Arguments async_setup_platforms {blob} hass entry platforms.
Arguments HatchRestCoordinator__init__ {blob} unique_id device.
Arguments _async_update_data {blob} self σ r.
Arguments async_setup_entry {blob} DOMAIN connect_async hass σ entry.
Arguments async_unload_platforms {blob} unloaded hass entry platforms.
Arguments async_unload_entry {blob} DOMAIN unloaded hass entry.
Arguments HatchRestEntity__init__ {blob} c.
Arguments unique_id {blob} self.
Arguments device_name {blob} {_} self σ.
Arguments device_info {blob} {_} DOMAIN self σ.

(** ** Sample data: one device under an upper-case address *)

Definition rest_ble : BLEDevice :=
  {| ble_address := "AA:BB:CC:DD:EE:FF"; ble_name := Some "Hatch Rest" |}.

Definition rest_handle (state : nat) : Device nat :=
  {| dev_name := Some "Hatch Rest";
     dev_address := Some "AA:BB:CC:DD:EE:FF";
     dev_state := state |}.

Definition rest_coordinator : HatchRestCoordinator nat :=
  HatchRestCoordinator__init__ (Some "aa:bb:cc:dd:ee:ff") 1%positive.

Definition rest_store : gmap positive (Device nat) :=
  {[ 1%positive := rest_handle 0 ]}.

Definition rest_entity : HatchRestEntity nat :=
  HatchRestEntity__init__ rest_coordinator.

Definition rest_entry : ConfigEntry :=
  {| entry_id := "entry-1";
     entry_unique_id := Some "aa:bb:cc:dd:ee:ff";
     entry_data := {[ CONF_ADDRESS := "aa:bb:cc:dd:ee:ff" ]} |}.

(** A host that knows the device, and one that knows no device. *)
Definition hass_with_device : HomeAssistant nat :=
  {| hass_data := ∅;
     hass_bluetooth := {[ "AA:BB:CC:DD:EE:FF" := rest_ble ]};
     hass_platforms := ∅ |}.

Definition hass_without_device : HomeAssistant nat :=
  {| hass_data := ∅; hass_bluetooth := ∅; hass_platforms := ∅ |}.

Definition connect_ok (ble : BLEDevice) (scan_now : bool) : result (Device nat) :=
  Return {| dev_name := ble_name ble;
            dev_address := Some (ble_address ble);
            dev_state := 0 |}.

Definition timed_out : py_exception := PyExc TimeoutError "" None.
Definition bleak_failed : py_exception := PyExc BleakError "Not connected" None.
Definition other_failed : py_exception := PyExc ValueError "bad payload" None.

Definition refresh_raising (e : py_exception) : refresh_response nat :=
  {| rr_device := rest_handle 0; rr_raised := Some e |}.

Definition refresh_ok : refresh_response nat :=
  {| rr_device := rest_handle 7; rr_raised := None |}.

(** [bleak.exc.BleakDBusError] and [asyncio.CancelledError]. *)
Definition BleakDBusError : py_class := Derived "BleakDBusError" BleakError.
Definition CancelledError : py_class := Derived "CancelledError" BaseException.

(** A host that knows the device under a lower-case address only. *)
Definition hass_lower_case : HomeAssistant nat :=
  {| hass_data := ∅;
     hass_bluetooth := {[ "aa:bb:cc:dd:ee:ff" := rest_ble ]};
     hass_platforms := ∅ |}.

(** A second entry for the same device, and an entry without unique id. *)
Definition second_entry : ConfigEntry :=
  {| entry_id := "entry-2";
     entry_unique_id := Some "11:22:33:44:55:66";
     entry_data := {[ CONF_ADDRESS := "Aa:Bb:Cc:Dd:Ee:Ff" ]} |}.

Definition anonymous_entry : ConfigEntry :=
  {| entry_id := "entry-3";
     entry_unique_id := None;
     entry_data := {[ CONF_ADDRESS := "aa:bb:cc:dd:ee:ff" ]} |}.

(** [rest_entry] with the address in mixed case. *)
Definition mixed_case_entry : ConfigEntry :=
  {| entry_id := "entry-1";
     entry_unique_id := Some "aa:bb:cc:dd:ee:ff";
     entry_data := {[ CONF_ADDRESS := "aA:bB:cC:dD:eE:fF" ]} |}.

(** An entity whose coordinator has no unique id. *)
Definition anonymous_entity : HatchRestEntity nat :=
  HatchRestEntity__init__ (HatchRestCoordinator__init__ None 1%positive).

Definition connect_failing (ble : BLEDevice) (scan_now : bool)
  : result (Device nat) :=
  Raise bleak_failed.

(** The host and the store after [rest_entry] is set up. *)
Definition hass_set_up : HomeAssistant nat :=
  (async_setup_entry "hatchrest" connect_ok hass_with_device rest_store
     rest_entry).1.2.

Definition store_set_up : gmap positive (Device nat) :=
  (async_setup_entry "hatchrest" connect_ok hass_with_device rest_store
     rest_entry).2.

(** * Properties *)

(** ** Exception classes *)

Lemma issubclass_refl (c : py_class) : issubclass c c = true.
Proof.
  destruct c; cbn [issubclass]; apply orb_true_iff; left;
    by apply bool_decide_eq_true.
Qed.

(** A class below [BleakError] is never below [TimeoutError]: the two
    derive from [Exception] on separate branches. *)
Lemma issubclass_BleakError_not_TimeoutError (c : py_class) :
  issubclass c BleakError = true -> issubclass c TimeoutError = false.
Proof.
  induction c as [|name base IH]; [done|].
  cbn [issubclass]. intros H.
  apply orb_true_iff in H as [H|H].
  - apply bool_decide_eq_true in H. injection H as -> ->. reflexivity.
  - rewrite (IH H), orb_false_r. apply bool_decide_eq_false.
    intros Heq. injection Heq as _ ->. discriminate H.
Qed.

Lemma isinstance_BleakError_not_TimeoutError (e : py_exception) :
  isinstance e BleakError = true -> isinstance e TimeoutError = false.
Proof. apply issubclass_BleakError_not_TimeoutError. Qed.

Lemma cause_depth_raise_from (cls : py_class) (msg : string) (e : py_exception) :
  cause_depth (raise_from cls msg e) = S (cause_depth e).
Proof. reflexivity. Qed.

(** The exception built by [raise ... from e] is never [e] itself. *)
Lemma raise_from_fresh (cls : py_class) (msg : string) (e : py_exception) :
  raise_from cls msg e <> e.
Proof.
  intros Heq. apply (f_equal cause_depth) in Heq.
  rewrite cause_depth_raise_from in Heq. lia.
Qed.

Lemma truthy_false (v : option string) :
  truthy v = false <-> v = None \/ v = Some "".
Proof.
  destruct v as [s|]; simpl.
  - rewrite negb_false_iff, String.eqb_eq.
    split; [intros ->; by right | intros [?|[= ->]]; done].
  - split; [by left | done].
Qed.

Lemma truthy_true (v : option string) :
  truthy v = true <-> exists s, v = Some s /\ s <> "".
Proof.
  destruct v as [s|]; simpl.
  - rewrite negb_true_iff, String.eqb_neq.
    split; [intros H; by exists s | intros (s' & [= ->] & H); done].
  - split; [done | intros (s' & ? & _); done].
Qed.

Lemma all_pair (a b : option string) :
  all [a; b] = truthy a && truthy b.
Proof. unfold all. simpl. by rewrite andb_true_r. Qed.

Lemma upper_char_idemp (c : ascii) : upper_char (upper_char c) = upper_char c.
Proof.
  destruct c as [[] [] [] [] [] [] [] []]; reflexivity.
Qed.

Lemma upper_idemp (s : string) : upper (upper s) = upper s.
Proof.
  induction s as [|c s IH]; simpl; [done|].
  by rewrite upper_char_idemp, IH.
Qed.

Lemma upper_length (s : string) : String.length (upper s) = String.length s.
Proof. induction s as [|c s IH]; simpl; congruence. Qed.

Example upper_mac : upper "aa:bb:cc:dd:ee:ff" = "AA:BB:CC:DD:EE:FF".
Proof. reflexivity. Qed.

Example upper_keeps_digits : upper "0123:4567-89" = "0123:4567-89".
Proof. reflexivity. Qed.

Lemma append_empty (s : string) : s ++ "" = s.
Proof.
  induction s as [|c s IH]; [done|].
  change (String c (s ++ "") = String c s). by rewrite IH.
Qed.

Lemma contains_suffix (pre s : string) : contains (pre ++ s) s.
Proof. exists pre, "". by rewrite append_empty. Qed.

(** ** _async_update_data *)

Section Coordinator.

Context {blob : Type}.
Implicit Types (self : HatchRestCoordinator blob) (σ : gmap positive (Device blob)).
Implicit Types (r : refresh_response blob) (e : py_exception).

(** Whatever the outcome, the method leaves the coordinator as it was and
    the store holds the handle as [refresh_data] left it. *)
Lemma update_data_state self σ r :
  (_async_update_data self σ r).1.2 = self /\
  (_async_update_data self σ r).2 = <[co_device self := rr_device r]> σ.
Proof.
  unfold _async_update_data.
  destruct (rr_raised r) as [e|]; [|done].
  destruct (isinstance e TimeoutError); [done|].
  by destruct (isinstance e BleakError).
Qed.

(** C1: when the refresh block raises a [TimeoutError], the method raises
    [UpdateFailed] with the message "Connection timed out while fetching
    data from device", chained from the timeout. *)
Theorem update_data_timeout self σ r e :
  rr_raised r = Some e ->
  isinstance e TimeoutError = true ->
  exists failure,
    (_async_update_data self σ r).1.1 = Raise failure /\
    exc_class failure = UpdateFailed /\
    exc_msg failure = "Connection timed out while fetching data from device" /\
    exc_cause failure = Some e.
Proof.
  intros Hraised Htimeout. unfold _async_update_data.
  rewrite Hraised, Htimeout. eexists. by split.
Qed.

(** C2: when the refresh block raises a [BleakError], the method raises
    [UpdateFailed] with the message "Failed getting data from device",
    chained from the transport error. *)
Theorem update_data_bleak_error self σ r e :
  rr_raised r = Some e ->
  isinstance e BleakError = true ->
  exists failure,
    (_async_update_data self σ r).1.1 = Raise failure /\
    exc_class failure = UpdateFailed /\
    exc_msg failure = "Failed getting data from device" /\
    exc_cause failure = Some e.
Proof.
  intros Hraised Hbleak. unfold _async_update_data.
  rewrite Hraised, (isinstance_BleakError_not_TimeoutError _ Hbleak), Hbleak.
  eexists. by split.
Qed.

(** C3, as amended: when the refresh block completes, the method returns
    [None]; the coordinator, its [data] included, is as before, and the
    refreshed state is in the handle that [device] refers to. *)
Theorem update_data_success self σ r :
  rr_raised r = None ->
  (_async_update_data self σ r).1.1 = Return None /\
  (_async_update_data self σ r).1.2 = self /\
  (_async_update_data self σ r).2 !! co_device self = Some (rr_device r).
Proof.
  intros Hok. unfold _async_update_data. rewrite Hok. simpl.
  split_and!; [done..|]. apply lookup_insert_eq.
Qed.

(** C4: an attempt that fails with a [TimeoutError] or a [BleakError]
    raises and leaves every field of the coordinator as it was: the
    snapshot [data], the unique id and the device reference. *)
Theorem update_data_failure_keeps_coordinator self σ r e :
  rr_raised r = Some e ->
  isinstance e TimeoutError = true \/ isinstance e BleakError = true ->
  let after := (_async_update_data self σ r).1.2 in
  (exists failure, (_async_update_data self σ r).1.1 = Raise failure) /\
  after = self /\
  co_data after = co_data self /\
  co_unique_id after = co_unique_id self /\
  co_device after = co_device self.
Proof.
  intros Hraised Hkind after.
  assert (after = self) as -> by apply update_data_state.
  split; [|done].
  unfold _async_update_data. rewrite Hraised.
  destruct (isinstance e TimeoutError); [by eexists|].
  destruct (isinstance e BleakError); by eexists.
Qed.

(** C5: the exception that leaves the refresh block leaves the method
    unchanged exactly when it is neither a [TimeoutError] nor a
    [BleakError]; those two are the only ones replaced by [UpdateFailed]. *)
Theorem update_data_propagates_iff self σ r e :
  rr_raised r = Some e ->
  (_async_update_data self σ r).1.1 = Raise e <->
  isinstance e TimeoutError = false /\ isinstance e BleakError = false.
Proof.
  intros Hraised. unfold _async_update_data. rewrite Hraised.
  destruct (isinstance e TimeoutError) eqn:Htimeout; simpl.
  - split; [|intros [? _]; done].
    intros [= Heq]. by apply raise_from_fresh in Heq.
  - destruct (isinstance e BleakError) eqn:Hbleak; simpl.
    + split; [|intros [_ ?]; done].
      intros [= Heq]. by apply raise_from_fresh in Heq.
    + done.
Qed.

End Coordinator.

(** ** device_info *)

Section Entity.

Context {blob : Type} `{!Inhabited blob} (DOMAIN : string).
Implicit Types (self : HatchRestEntity blob) (σ : gmap positive (Device blob)).

(** The two assertions after the check never fire: the method either
    raises [ValueError] or returns. *)
Lemma device_info_cases self σ :
  let address := dev_address (σ !!! _device self) in
  if truthy address && truthy (unique_id self) then
    exists info, device_info DOMAIN self σ = Return info
  else
    device_info DOMAIN self σ =
      Raise (PyExc ValueError "Missing bluetooth address for hatch rest device" None).
Proof.
  intros address. unfold device_info. fold address. rewrite all_pair.
  destruct (truthy address), (truthy (unique_id self)); simpl; eauto.
Qed.

(** C6: [device_info] raises [ValueError] exactly when the device address
    or the unique id is [None] or empty, and returns normally exactly when
    both are present. *)
Theorem device_info_raises_iff self σ :
  let address := dev_address (σ !!! _device self) in
  let missing :=
    (address = None \/ address = Some "") \/
    (unique_id self = None \/ unique_id self = Some "") in
  ((exists e, device_info DOMAIN self σ = Raise e /\ exc_class e = ValueError)
     <-> missing) /\
  ((exists info, device_info DOMAIN self σ = Return info) <-> ~ missing).
Proof.
  intros address missing.
  assert (missing <-> truthy address && truthy (unique_id self) = false) as Hm.
  { unfold missing. by rewrite <- !truthy_false, andb_false_iff. }
  pose proof (device_info_cases self σ) as Hcases. simpl in Hcases.
  fold address in Hcases. rewrite !Hm.
  destruct (truthy address && truthy (unique_id self)).
  - destruct Hcases as [info ->]. split; split.
    + intros (e & [=] & _).
    + done.
    + done.
    + by exists info.
  - rewrite Hcases. split; split.
    + done.
    + intros _. by eexists.
    + intros (info & [=]).
    + done.
Qed.

(** C7: with a non-empty address and a non-empty unique id, [device_info]
    returns the dictionary with exactly the keys identifiers, connections,
    name, manufacturer and model, holding [{(DOMAIN, unique_id)}],
    [{(CONNECTION_BLUETOOTH, address)}], the device's name, "Hatch" and
    "Rest". *)
Theorem device_info_descriptor self σ (address uid : string) :
  dev_address (σ !!! _device self) = Some address ->
  address <> "" ->
  unique_id self = Some uid ->
  uid <> "" ->
  exists info : gmap string info_value,
    device_info DOMAIN self σ = Return info /\
    dom info =
      {[ "identifiers"; "connections"; "name"; "manufacturer"; "model" ]} /\
    info !! "identifiers" = Some (TupleSet {[ (DOMAIN, Some uid) ]}) /\
    info !! "connections" =
      Some (TupleSet {[ (CONNECTION_BLUETOOTH, Some address) ]}) /\
    info !! "name" = Some (Str (dev_name (σ !!! _device self))) /\
    info !! "manufacturer" = Some (Str (Some "Hatch")) /\
    info !! "model" = Some (Str (Some "Rest")).
Proof.
  intros Haddr Hne_addr Huid Hne_uid.
  assert (truthy (Some address) = true) as Hta by (apply truthy_true; eauto).
  assert (truthy (Some uid) = true) as Htu by (apply truthy_true; eauto).
  unfold device_info, device_name. rewrite all_pair, Haddr, Huid, Hta, Htu.
  simpl. eexists. split; [done|].
  split; [rewrite !dom_insert_L, dom_empty_L; set_solver|].
  split_and!; by simplify_map_eq.
Qed.

End Entity.

(** ** async_setup_entry *)

Section Setup.

Context {blob : Type} (DOMAIN : string).
Implicit Types (hass : HomeAssistant blob) (σ : gmap positive (Device blob)).
Implicit Types (entry : ConfigEntry) (address : string).
Implicit Types (connect_async : BLEDevice -> bool -> result (Device blob)).

(** C8: when discovery finds no device for the configured address, setup
    raises [ConfigEntryNotReady] with a message that contains the address,
    and the host, [hass.data] included, is as before: no coordinator is
    registered for the entry. *)
Theorem setup_device_not_found connect_async hass σ entry address :
  entry_data entry !! CONF_ADDRESS = Some address ->
  async_ble_device_from_address hass (upper address) = None ->
  exists failure,
    async_setup_entry DOMAIN connect_async hass σ entry
      = (Raise failure, hass, σ) /\
    exc_class failure = ConfigEntryNotReady /\
    contains (exc_msg failure) address.
Proof.
  intros Hconf Hnone. unfold async_setup_entry. rewrite Hconf, Hnone.
  eexists. split_and!; [done..|]. apply contains_suffix.
Qed.

(** C10: discovery is keyed by the upper-cased address.  When it finds
    nothing, the message of [ConfigEntryNotReady] ends with the address as
    configured; when a device is known under the upper-cased address and
    the connection succeeds, setup returns [True] and registers the
    coordinator of a new handle under [hass.data[DOMAIN][entry_id]]. *)
Theorem setup_discovers_upper_address connect_async hass σ entry address :
  entry_data entry !! CONF_ADDRESS = Some address ->
  let out := async_setup_entry DOMAIN connect_async hass σ entry in
  (hass_bluetooth hass !! upper address = None ->
     out.1.1 =
       Raise (PyExc ConfigEntryNotReady
                ("Could not find Hatch Rest device with address " ++ address)
                None)) /\
  (forall ble handle,
     hass_bluetooth hass !! upper address = Some ble ->
     connect_async ble false = Return handle ->
     out.1.1 = Return true /\
     hass_data out.1.2 !! DOMAIN ≫= (.!! entry_id entry) =
       Some (HatchRestCoordinator__init__ (entry_unique_id entry)
               (fresh (dom σ))) /\
     σ !! fresh (dom σ) = None /\
     out.2 !! fresh (dom σ) = Some handle) /\
  (forall ble e,
     hass_bluetooth hass !! upper address = Some ble ->
     connect_async ble false = Raise e ->
     out = (Raise e, hass, σ)).
Proof.
  intros Hconf out. subst out. unfold async_setup_entry.
  rewrite Hconf. unfold async_ble_device_from_address. split_and!.
  - by intros ->.
  - intros ble handle -> ->. simpl. split_and!.
    + done.
    + rewrite lookup_insert_eq. simpl. apply lookup_insert_eq.
    + apply not_elem_of_dom, is_fresh.
    + apply lookup_insert_eq.
  - by intros ble e -> ->.
Qed.

End Setup.

(** ** More on _async_update_data *)

Section CoordinatorFrame.

Context {blob : Type} `{!Inhabited blob} (DOMAIN : string).
Implicit Types (self : HatchRestCoordinator blob) (σ : gmap positive (Device blob)).
Implicit Types (r : refresh_response blob) (e : py_exception).
Implicit Types (entity : HatchRestEntity blob).

(** X1: the method raises exactly when the refresh block raised, so no
    exception is swallowed; when it returns, the value is [None]. *)
Theorem update_data_raises_iff_block_raised self σ r :
  ((exists failure, (_async_update_data self σ r).1.1 = Raise failure)
     <-> is_Some (rr_raised r)) /\
  (forall v, (_async_update_data self σ r).1.1 = Return v ->
     v = None /\ rr_raised r = None).
Proof.
  unfold _async_update_data.
  destruct (rr_raised r) as [e|]; simpl.
  - destruct (isinstance e TimeoutError), (isinstance e BleakError); simpl;
      (split; [split; eauto | intros v [=]]).
  - split; [split|].
    + intros (failure & [=]).
    + intros [e [=]].
    + by intros v [= <-].
Qed.

(** X2: an exception the method raises in place of the one leaving the
    block is an [UpdateFailed] chained from it, and its message tells the
    two kinds apart: the timeout message for a [TimeoutError], the other
    one for a [BleakError]. *)
Theorem update_failed_message_identifies_kind self σ r e failure :
  rr_raised r = Some e ->
  (_async_update_data self σ r).1.1 = Raise failure ->
  failure <> e ->
  exc_class failure = UpdateFailed /\
  exc_cause failure = Some e /\
  (exc_msg failure = "Connection timed out while fetching data from device" /\
     isinstance e TimeoutError = true \/
   exc_msg failure = "Failed getting data from device" /\
     isinstance e TimeoutError = false /\ isinstance e BleakError = true).
Proof.
  intros Hraised. unfold _async_update_data. rewrite Hraised.
  destruct (isinstance e TimeoutError) eqn:Htimeout; simpl.
  - intros [= <-] _. split_and!; [done..|]. by left.
  - destruct (isinstance e BleakError) eqn:Hbleak; simpl.
    + intros [= <-] _. split_and!; [done..|]. by right.
    + by intros [= <-] Hne.
Qed.

(** X3: a refresh writes the handle of its own coordinator only: every
    other handle in the store, and what an entity of another device
    reports, is as before. *)
Theorem update_data_other_devices_unaffected self σ r :
  let σ' := (_async_update_data self σ r).2 in
  (forall l, l <> co_device self -> σ' !! l = σ !! l) /\
  (forall entity, _device entity <> co_device self ->
     device_name entity σ' = device_name entity σ /\
     device_info DOMAIN entity σ' = device_info DOMAIN entity σ).
Proof.
  intros σ'. subst σ'.
  rewrite (proj2 (update_data_state self σ r)). split.
  - intros l Hne. by rewrite lookup_insert_ne.
  - intros entity Hne. unfold device_info, device_name.
    by rewrite lookup_total_insert_ne.
Qed.

(** X4: an entity built on the coordinator shares its handle: after a
    refresh, [device_name] is the name the refreshed handle reports, and
    [device_info] returns exactly when the refreshed address and the
    coordinator's unique id are both non-empty. *)
Theorem entity_reads_refreshed_handle self σ r :
  let entity := HatchRestEntity__init__ self in
  let σ' := (_async_update_data self σ r).2 in
  device_name entity σ' = dev_name (rr_device r) /\
  ((exists info, device_info DOMAIN entity σ' = Return info) <->
   truthy (dev_address (rr_device r)) = true /\
   truthy (co_unique_id self) = true).
Proof.
  intros entity σ'. subst σ'.
  rewrite (proj2 (update_data_state self σ r)).
  assert ((<[co_device self := rr_device r]> σ) !!! co_device self = rr_device r)
    as Hread by apply lookup_total_insert_eq.
  split; [unfold device_name; simpl; by rewrite Hread|].
  pose proof (device_info_cases DOMAIN entity
                (<[co_device self := rr_device r]> σ)) as Hcases.
  cbv zeta in Hcases.
  change (_device entity) with (co_device self) in Hcases.
  change (unique_id entity) with (co_unique_id self) in Hcases.
  rewrite Hread in Hcases.
  destruct (truthy (dev_address (rr_device r))), (truthy (co_unique_id self));
    simpl in Hcases;
    (split; [intros Hret | intros [? ?]]); try done;
    destruct Hret as [info Hret]; rewrite Hcases in Hret; discriminate.
Qed.

End CoordinatorFrame.

(** ** More on device_info *)

Section EntityMore.

Context {blob : Type} `{!Inhabited blob} (DOMAIN : string).
Implicit Types (self : HatchRestEntity blob) (σ : gmap positive (Device blob)).

(** X5: the only exception [device_info] raises is the [ValueError] with
    its fixed message; the two assertions after the check never fail. *)
Theorem device_info_never_asserts self σ e :
  device_info DOMAIN self σ = Raise e ->
  e = PyExc ValueError "Missing bluetooth address for hatch rest device" None /\
  isinstance e AssertionError = false.
Proof.
  intros Hraise. pose proof (device_info_cases DOMAIN self σ) as Hcases.
  simpl in Hcases.
  destruct (truthy (dev_address (σ !!! _device self)) && truthy (unique_id self)).
  - destruct Hcases as [info Hret]. congruence.
  - rewrite Hcases in Hraise. by injection Hraise as <-.
Qed.

End EntityMore.

(** ** More on async_setup_entry *)

Section SetupMore.

Context {blob : Type} `{!Inhabited blob} (DOMAIN : string).
Implicit Types (hass : HomeAssistant blob) (σ : gmap positive (Device blob)).
Implicit Types (entry : ConfigEntry) (address : string).
Implicit Types (connect_async : BLEDevice -> bool -> result (Device blob)).

(** What a successful setup did. *)
Lemma setup_success_shape connect_async hass σ entry b :
  (async_setup_entry DOMAIN connect_async hass σ entry).1.1 = Return b ->
  exists address ble handle,
    entry_data entry !! CONF_ADDRESS = Some address /\
    hass_bluetooth hass !! upper address = Some ble /\
    connect_async ble false = Return handle /\
    async_setup_entry DOMAIN connect_async hass σ entry =
      (Return true,
       {| hass_data :=
            <[DOMAIN :=
                <[entry_id entry :=
                    HatchRestCoordinator__init__ (entry_unique_id entry)
                      (fresh (dom σ))]>
                  (default ∅ (hass_data hass !! DOMAIN))]>
              (hass_data hass);
          hass_bluetooth := hass_bluetooth hass;
          hass_platforms := <[entry_id entry := PLATFORMS]> (hass_platforms hass) |},
       <[fresh (dom σ) := handle]> σ).
Proof.
  unfold async_setup_entry, async_ble_device_from_address.
  destruct (entry_data entry !! CONF_ADDRESS) as [address|] eqn:Hconf; [|done].
  destruct (hass_bluetooth hass !! upper address) as [ble|] eqn:Hfound; [|done].
  destruct (connect_async ble false) as [handle|e] eqn:Hconnect; [|done].
  intros _. exists address, ble, handle. by rewrite Hfound, Hconnect.
Qed.

(** X6: a setup that raises changes nothing: the host, [hass.data]
    included, and the store of handles are as before, whichever of the
    three steps failed. *)
Theorem setup_failure_changes_nothing connect_async hass σ entry e :
  (async_setup_entry DOMAIN connect_async hass σ entry).1.1 = Raise e ->
  async_setup_entry DOMAIN connect_async hass σ entry = (Raise e, hass, σ).
Proof.
  unfold async_setup_entry.
  destruct (entry_data entry !! CONF_ADDRESS) as [address|];
    [|by intros [= <-]].
  destruct (async_ble_device_from_address hass (upper address)) as [ble|];
    [|by intros [= <-]].
  destruct (connect_async ble false) as [handle|e']; [done|].
  by intros [= <-].
Qed.

(** X7: the three ways setup fails: [KeyError] when the entry has no
    address, [ConfigEntryNotReady] when discovery finds nothing under the
    upper-cased address, and otherwise the exception [connect_async]
    raised, unchanged. *)
Theorem setup_failure_inv connect_async hass σ entry e :
  (async_setup_entry DOMAIN connect_async hass σ entry).1.1 = Raise e ->
  (entry_data entry !! CONF_ADDRESS = None /\ exc_class e = KeyError) \/
  (exists address,
     entry_data entry !! CONF_ADDRESS = Some address /\
     hass_bluetooth hass !! upper address = None /\
     exc_class e = ConfigEntryNotReady) \/
  (exists address ble,
     entry_data entry !! CONF_ADDRESS = Some address /\
     hass_bluetooth hass !! upper address = Some ble /\
     connect_async ble false = Raise e).
Proof.
  unfold async_setup_entry, async_ble_device_from_address.
  destruct (entry_data entry !! CONF_ADDRESS) as [address|];
    [|intros [= <-]; by left].
  destruct (hass_bluetooth hass !! upper address) as [ble|] eqn:Hfound;
    [|intros [= <-]; right; left; by exists address].
  destruct (connect_async ble false) as [handle|e'] eqn:Hconnect; [done|].
  intros [= <-]. right; right. by exists address, ble.
Qed.

(** X8: setup returns only [True], and only after the address was read,
    the device discovered under the upper-cased address and the connection
    made with [scan_now=False]. *)
Theorem setup_success_inv connect_async hass σ entry b :
  (async_setup_entry DOMAIN connect_async hass σ entry).1.1 = Return b ->
  b = true /\
  exists address ble handle,
    entry_data entry !! CONF_ADDRESS = Some address /\
    hass_bluetooth hass !! upper address = Some ble /\
    connect_async ble false = Return handle.
Proof.
  intros Hret.
  destruct (setup_success_shape _ _ _ _ _ Hret)
    as (address & ble & handle & Hconf & Hfound & Hconnect & Hout).
  rewrite Hout in Hret. injection Hret as <-.
  split; [done|]. by exists address, ble, handle.
Qed.

(** X9: a successful setup touches one slot only: the data of other
    domains, the coordinators of other entries, the handles already in the
    store and the devices the host knows are as before, and the entry has
    the platforms of [PLATFORMS] set up. *)
Theorem setup_success_frame connect_async hass σ entry b :
  (async_setup_entry DOMAIN connect_async hass σ entry).1.1 = Return b ->
  let hass' := (async_setup_entry DOMAIN connect_async hass σ entry).1.2 in
  let σ' := (async_setup_entry DOMAIN connect_async hass σ entry).2 in
  (forall domain, domain <> DOMAIN ->
     hass_data hass' !! domain = hass_data hass !! domain) /\
  (forall id, id <> entry_id entry ->
     hass_data hass' !! DOMAIN ≫= (.!! id) =
     hass_data hass !! DOMAIN ≫= (.!! id)) /\
  (forall l handle, σ !! l = Some handle -> σ' !! l = Some handle) /\
  hass_bluetooth hass' = hass_bluetooth hass /\
  hass_platforms hass' !! entry_id entry = Some PLATFORMS.
Proof.
  intros Hret hass' σ'. subst hass' σ'.
  destruct (setup_success_shape _ _ _ _ _ Hret)
    as (address & ble & handle & _ & _ & _ & ->).
  simpl. split_and!.
  - intros domain Hne. by rewrite lookup_insert_ne.
  - intros id Hne. rewrite lookup_insert_eq. simpl.
    rewrite lookup_insert_ne by done.
    by destruct (hass_data hass !! DOMAIN).
  - intros l handle' Hl. rewrite lookup_insert_ne; [done|].
    intros <-. apply elem_of_dom_2 in Hl. by apply is_fresh in Hl.
  - done.
  - apply lookup_insert_eq.
Qed.

(** X10: two entries set up one after the other are both registered, and
    their coordinators refer to different handles. *)
Theorem setup_two_entries connect_async hass σ entry1 entry2 b1 b2 :
  entry_id entry1 <> entry_id entry2 ->
  let out1 := async_setup_entry DOMAIN connect_async hass σ entry1 in
  let out2 := async_setup_entry DOMAIN connect_async out1.1.2 out1.2 entry2 in
  out1.1.1 = Return b1 ->
  out2.1.1 = Return b2 ->
  exists c1 c2,
    hass_data out2.1.2 !! DOMAIN ≫= (.!! entry_id entry1) = Some c1 /\
    hass_data out2.1.2 !! DOMAIN ≫= (.!! entry_id entry2) = Some c2 /\
    co_unique_id c1 = entry_unique_id entry1 /\
    co_unique_id c2 = entry_unique_id entry2 /\
    co_device c1 <> co_device c2 /\
    is_Some (out2.2 !! co_device c1) /\
    is_Some (out2.2 !! co_device c2).
Proof.
  intros Hids out1 out2 Hret1 Hret2. subst out2.
  destruct (setup_success_shape _ _ _ _ _ Hret2)
    as (address2 & ble2 & handle2 & _ & _ & _ & ->).
  subst out1.
  destruct (setup_success_shape _ _ _ _ _ Hret1)
    as (address1 & ble1 & handle1 & _ & _ & _ & ->).
  simpl. rewrite !lookup_insert_eq. simpl.
  eexists _, _. split_and!.
  - rewrite lookup_insert_ne by done. apply lookup_insert_eq.
  - apply lookup_insert_eq.
  - done.
  - done.
  - simpl. intros Heq.
    pose proof (is_fresh (dom (<[fresh (dom σ) := handle1]> σ))) as Hfresh.
    rewrite <- Heq in Hfresh. apply Hfresh.
    rewrite dom_insert_L. set_solver.
  - simpl. rewrite lookup_insert_ne.
    + rewrite lookup_insert_eq. by eexists.
    + intros Heq.
      pose proof (is_fresh (dom (<[fresh (dom σ) := handle1]> σ))) as Hfresh.
      rewrite Heq in Hfresh. apply Hfresh.
      rewrite dom_insert_L. set_solver.
  - simpl. rewrite lookup_insert_eq. by eexists.
Qed.

End SetupMore.

(** ** Setup followed by the entity and by unload *)

Section Lifecycle.

Context {blob : Type} `{!Inhabited blob} (DOMAIN : string).
Implicit Types (hass : HomeAssistant blob) (σ : gmap positive (Device blob)).
Implicit Types (entry : ConfigEntry) (address : string).
Implicit Types (connect_async : BLEDevice -> bool -> result (Device blob)).

(** X11: an entity built on the coordinator that setup registered reports
    the name of the connected handle; its [device_info] carries the
    entry's unique id and the handle's address when both are non-empty,
    and raises [ValueError] otherwise, although setup succeeded. *)
Theorem setup_then_device_info connect_async hass σ entry address ble handle :
  entry_data entry !! CONF_ADDRESS = Some address ->
  hass_bluetooth hass !! upper address = Some ble ->
  connect_async ble false = Return handle ->
  let out := async_setup_entry DOMAIN connect_async hass σ entry in
  exists c,
    hass_data out.1.2 !! DOMAIN ≫= (.!! entry_id entry) = Some c /\
    let entity := HatchRestEntity__init__ c in
    device_name entity out.2 = dev_name handle /\
    if truthy (dev_address handle) && truthy (entry_unique_id entry) then
      exists info : gmap string info_value,
        device_info DOMAIN entity out.2 = Return info /\
        info !! "identifiers" =
          Some (TupleSet {[ (DOMAIN, entry_unique_id entry) ]}) /\
        info !! "connections" =
          Some (TupleSet {[ (CONNECTION_BLUETOOTH, dev_address handle) ]}) /\
        info !! "name" = Some (Str (dev_name handle))
    else
      device_info DOMAIN entity out.2 =
        Raise (PyExc ValueError
                 "Missing bluetooth address for hatch rest device" None).
Proof.
  intros Hconf Hfound Hconnect out. subst out.
  unfold async_setup_entry, async_ble_device_from_address.
  rewrite Hconf, Hfound, Hconnect. simpl.
  eexists. split.
  { rewrite lookup_insert_eq. simpl. apply lookup_insert_eq. }
  unfold device_info, device_name, unique_id.
  unfold HatchRestEntity__init__, HatchRestCoordinator__init__.
  cbn [_device _attr_unique_id co_device co_unique_id fst snd].
  rewrite lookup_total_insert_eq, all_pair.
  split; [done|].
  destruct (truthy (dev_address handle)), (truthy (entry_unique_id entry));
    simpl; try done.
  eexists. split; [done|]. split_and!; by simplify_map_eq.
Qed.

(** X12: the case of the letters in the configured address does not matter
    to what setup does: two entries that differ only there leave the same
    host and store, and one succeeds exactly when the other does. *)
Theorem setup_case_insensitive connect_async hass σ entry1 entry2 a1 a2 :
  entry_id entry1 = entry_id entry2 ->
  entry_unique_id entry1 = entry_unique_id entry2 ->
  entry_data entry1 !! CONF_ADDRESS = Some a1 ->
  entry_data entry2 !! CONF_ADDRESS = Some a2 ->
  upper a1 = upper a2 ->
  let out1 := async_setup_entry DOMAIN connect_async hass σ entry1 in
  let out2 := async_setup_entry DOMAIN connect_async hass σ entry2 in
  out1.1.2 = out2.1.2 /\
  out1.2 = out2.2 /\
  (forall b, out1.1.1 = Return b <-> out2.1.1 = Return b).
Proof.
  intros Hid Huid Ha1 Ha2 Hupper out1 out2. subst out1 out2.
  unfold async_setup_entry. rewrite Ha1, Ha2, Hupper, Hid, Huid.
  destruct (async_ble_device_from_address hass (upper a2)) as [ble|];
    [|by split_and!].
  destruct (connect_async ble false) as [handle|e]; [|by split_and!].
  unfold async_setup_platforms. simpl. rewrite Hid. by split_and!.
Qed.

(** X13: unloading a registered entry, once the host unloaded its
    platforms, returns [True] and removes that entry's coordinator only:
    the other entries and the other domains are as before, and
    [hass.data[DOMAIN]] itself stays. *)
Theorem unload_removes_only_entry hass entry c :
  hass_data hass !! DOMAIN ≫= (.!! entry_id entry) = Some c ->
  let out := async_unload_entry DOMAIN true hass entry in
  out.1 = Return true /\
  hass_data out.2 !! DOMAIN ≫= (.!! entry_id entry) = None /\
  is_Some (hass_data out.2 !! DOMAIN) /\
  (forall id, id <> entry_id entry ->
     hass_data out.2 !! DOMAIN ≫= (.!! id) =
     hass_data hass !! DOMAIN ≫= (.!! id)) /\
  (forall domain, domain <> DOMAIN ->
     hass_data out.2 !! domain = hass_data hass !! domain).
Proof.
  intros Hreg out. subst out. unfold async_unload_entry. simpl.
  destruct (hass_data hass !! DOMAIN) as [domain_data|] eqn:Hdomain; [|done].
  simpl in Hreg. rewrite Hreg. simpl. split_and!.
  - done.
  - rewrite lookup_insert_eq. simpl. apply lookup_delete_eq.
  - rewrite lookup_insert_eq. by eexists.
  - intros id Hne. rewrite lookup_insert_eq. simpl.
    by rewrite lookup_delete_ne.
  - intros domain Hne. by rewrite lookup_insert_ne.
Qed.

(** X14: once the host unloaded the platforms, unload raises [KeyError]
    exactly when no coordinator is registered for the entry, whether
    [hass.data] lacks the domain or the domain lacks the entry; then
    [hass.data] is as before. *)
Theorem unload_raises_iff_not_registered hass entry :
  let out := async_unload_entry DOMAIN true hass entry in
  ((exists e, out.1 = Raise e /\ exc_class e = KeyError) <->
   hass_data hass !! DOMAIN ≫= (.!! entry_id entry) = None) /\
  (forall e, out.1 = Raise e -> hass_data out.2 = hass_data hass).
Proof.
  intros out. subst out. unfold async_unload_entry. simpl.
  destruct (hass_data hass !! DOMAIN) as [domain_data|]; simpl.
  - destruct (domain_data !! entry_id entry) as [c|]; simpl.
    + split; [split|]; [intros (e & [=] & _) | done | intros e [=]].
    + split; [split|]; [done | intros _; by eexists | done].
  - split; [split|]; [done | intros _; by eexists | done].
Qed.

(** X15: when unload returns, it returns the host's answer; on [False]
    the host state is untouched, so the coordinator stays registered, and
    on [True] a coordinator was registered and is gone. *)
Theorem unload_returns_host_answer (unloaded : bool) hass entry b :
  let out := async_unload_entry DOMAIN unloaded hass entry in
  out.1 = Return b ->
  b = unloaded /\
  if b then
    is_Some (hass_data hass !! DOMAIN ≫= (.!! entry_id entry)) /\
    hass_data out.2 !! DOMAIN ≫= (.!! entry_id entry) = None
  else out.2 = hass.
Proof.
  intros out. subst out. unfold async_unload_entry.
  destruct unloaded; simpl; [|by intros [= <-]].
  destruct (hass_data hass !! DOMAIN) as [domain_data|]; simpl; [|done].
  destruct (domain_data !! entry_id entry) as [c|] eqn:Hreg; simpl; [|done].
  intros [= <-]. split; [done|]. split; [by eexists|].
  rewrite lookup_insert_eq. simpl. apply lookup_delete_eq.
Qed.

(** X16: setup followed by unload: unload returns [True] and
    [hass.data[DOMAIN]] is what it was before setup without the entry (the
    empty dictionary when the domain was not there); when the domain was
    there and the entry was not registered, [hass.data] is back to what
    it was. *)
Theorem setup_then_unload connect_async hass σ entry b :
  let out := async_setup_entry DOMAIN connect_async hass σ entry in
  out.1.1 = Return b ->
  let out' := async_unload_entry DOMAIN true out.1.2 entry in
  out'.1 = Return true /\
  hass_data out'.2 !! DOMAIN =
    Some (delete (entry_id entry) (default ∅ (hass_data hass !! DOMAIN))) /\
  (forall domain, domain <> DOMAIN ->
     hass_data out'.2 !! domain = hass_data hass !! domain) /\
  (forall domain_data,
     hass_data hass !! DOMAIN = Some domain_data ->
     domain_data !! entry_id entry = None ->
     hass_data out'.2 = hass_data hass).
Proof.
  intros out Hret out'. subst out' out.
  destruct (setup_success_shape _ _ _ _ _ _ Hret)
    as (address & ble & handle & _ & _ & _ & ->).
  unfold async_unload_entry. simpl.
  rewrite !lookup_insert_eq. simpl.
  rewrite insert_insert_eq, delete_insert_eq.
  split_and!.
  - done.
  - apply lookup_insert_eq.
  - intros domain Hne. by rewrite lookup_insert_ne.
  - intros domain_data Hdomain Hentry. rewrite Hdomain. simpl.
    rewrite (delete_id domain_data) by done. by apply insert_id.
Qed.

(** X17: an entry cannot be unloaded twice: after an unload that removed
    the coordinator, the next one raises [KeyError]. *)
Theorem unload_twice_raises hass entry c :
  hass_data hass !! DOMAIN ≫= (.!! entry_id entry) = Some c ->
  let out := async_unload_entry DOMAIN true hass entry in
  let out' := async_unload_entry DOMAIN true out.2 entry in
  out.1 = Return true /\
  exists e, out' = (Raise e, out'.2) /\ exc_class e = KeyError /\
            hass_data out'.2 = hass_data out.2.
Proof.
  intros Hreg out out'. subst out' out. unfold async_unload_entry. simpl.
  destruct (hass_data hass !! DOMAIN) as [domain_data|] eqn:Hdomain; [|done].
  simpl in Hreg. rewrite Hreg. simpl.
  rewrite lookup_insert_eq, lookup_delete_eq. simpl.
  split; [done|]. by eexists.
Qed.

End Lifecycle.

(** ** The theorems at the sample device *)

Example update_data_bleak_subclass :
  (_async_update_data rest_coordinator rest_store
     (refresh_raising (PyExc BleakDBusError "org.bluez.Error.Failed" None))).1.1
  = Raise (PyExc UpdateFailed "Failed getting data from device"
             (Some (PyExc BleakDBusError "org.bluez.Error.Failed" None))).
Proof. reflexivity. Qed.

Example update_data_cancelled_propagates :
  (_async_update_data rest_coordinator rest_store
     (refresh_raising (PyExc CancelledError "" None))).1.1
  = Raise (PyExc CancelledError "" None).
Proof. reflexivity. Qed.

Example update_data_refreshes_handle :
  device_name rest_entity
    (_async_update_data rest_coordinator rest_store refresh_ok).2
  = Some "Hatch Rest" /\
  dev_state ((_async_update_data rest_coordinator rest_store refresh_ok).2
               !!! _device rest_entity) = 7.
Proof. split; vm_compute; reflexivity. Qed.

Example setup_lower_case_host_not_found :
  (async_setup_entry "hatchrest" connect_ok hass_lower_case rest_store
     rest_entry).1.1
  = Raise (PyExc ConfigEntryNotReady
             "Could not find Hatch Rest device with address aa:bb:cc:dd:ee:ff"
             None).
Proof. vm_compute. reflexivity. Qed.

Example setup_missing_address :
  (async_setup_entry "hatchrest" connect_ok hass_with_device rest_store
     {| entry_id := "entry-2"; entry_unique_id := None; entry_data := ∅ |}).1.1
  = Raise (PyExc KeyError "'address'" None).
Proof. vm_compute. reflexivity. Qed.

Example device_info_without_unique_id :
  device_info "hatchrest"
    (HatchRestEntity__init__ (HatchRestCoordinator__init__ None 1%positive))
    rest_store
  = Raise (PyExc ValueError "Missing bluetooth address for hatch rest device"
             None).
Proof. vm_compute. reflexivity. Qed.

Lemma update_data_timeout_witness :
  rr_raised (refresh_raising timed_out) = Some timed_out /\
  isinstance timed_out TimeoutError = true /\
  exists failure,
    (_async_update_data rest_coordinator rest_store
       (refresh_raising timed_out)).1.1 = Raise failure /\
    exc_class failure = UpdateFailed /\
    exc_msg failure = "Connection timed out while fetching data from device" /\
    exc_cause failure = Some timed_out.
Proof.
  split; [reflexivity|]. split; [reflexivity|].
  apply (update_data_timeout rest_coordinator rest_store
           (refresh_raising timed_out) timed_out); reflexivity.
Defined.

Lemma update_data_bleak_error_witness :
  rr_raised (refresh_raising bleak_failed) = Some bleak_failed /\
  isinstance bleak_failed BleakError = true /\
  exists failure,
    (_async_update_data rest_coordinator rest_store
       (refresh_raising bleak_failed)).1.1 = Raise failure /\
    exc_class failure = UpdateFailed /\
    exc_msg failure = "Failed getting data from device" /\
    exc_cause failure = Some bleak_failed.
Proof.
  split; [reflexivity|]. split; [reflexivity|].
  apply (update_data_bleak_error rest_coordinator rest_store
           (refresh_raising bleak_failed) bleak_failed); reflexivity.
Defined.

(** C3 as stated fails: after a refresh that completes with state 7, the
    value returned is [None], not that state, and the coordinator's [data]
    is still [None]. *)
Lemma update_data_success_returns_state_refuted :
  rr_raised refresh_ok = None /\
  dev_state (rr_device refresh_ok) = 7 /\
  (_async_update_data rest_coordinator rest_store refresh_ok).1.1
    <> Return (Some (dev_state (rr_device refresh_ok))) /\
  co_data (_async_update_data rest_coordinator rest_store refresh_ok).1.2
    <> Some (dev_state (rr_device refresh_ok)).
Proof. split_and!; [reflexivity | reflexivity | discriminate | discriminate]. Qed.

Lemma update_data_success_witness :
  rr_raised refresh_ok = None /\
  (_async_update_data rest_coordinator rest_store refresh_ok).1.1 = Return None /\
  (_async_update_data rest_coordinator rest_store refresh_ok).1.2
    = rest_coordinator /\
  (_async_update_data rest_coordinator rest_store refresh_ok).2
    !! co_device rest_coordinator = Some (rr_device refresh_ok).
Proof.
  split; [reflexivity|].
  apply (update_data_success rest_coordinator rest_store refresh_ok).
  reflexivity.
Defined.

Lemma update_data_failure_keeps_coordinator_witness :
  rr_raised (refresh_raising bleak_failed) = Some bleak_failed /\
  (isinstance bleak_failed TimeoutError = true \/
   isinstance bleak_failed BleakError = true) /\
  let after :=
    (_async_update_data rest_coordinator rest_store
       (refresh_raising bleak_failed)).1.2 in
  (exists failure,
     (_async_update_data rest_coordinator rest_store
        (refresh_raising bleak_failed)).1.1 = Raise failure) /\
  after = rest_coordinator /\
  co_data after = co_data rest_coordinator /\
  co_unique_id after = co_unique_id rest_coordinator /\
  co_device after = co_device rest_coordinator.
Proof.
  split; [reflexivity|]. split; [right; reflexivity|].
  apply (update_data_failure_keeps_coordinator rest_coordinator rest_store
           (refresh_raising bleak_failed) bleak_failed);
    [reflexivity | right; reflexivity].
Defined.

Lemma update_data_propagates_iff_witness :
  rr_raised (refresh_raising other_failed) = Some other_failed /\
  ((_async_update_data rest_coordinator rest_store
      (refresh_raising other_failed)).1.1 = Raise other_failed <->
   isinstance other_failed TimeoutError = false /\
   isinstance other_failed BleakError = false).
Proof.
  split; [reflexivity|].
  apply (update_data_propagates_iff rest_coordinator rest_store
           (refresh_raising other_failed) other_failed).
  reflexivity.
Defined.

Lemma device_info_descriptor_witness :
  dev_address (rest_store !!! _device rest_entity) = Some "AA:BB:CC:DD:EE:FF" /\
  "AA:BB:CC:DD:EE:FF" <> "" /\
  unique_id rest_entity = Some "aa:bb:cc:dd:ee:ff" /\
  "aa:bb:cc:dd:ee:ff" <> "" /\
  exists info : gmap string info_value,
    device_info "hatchrest" rest_entity rest_store = Return info /\
    dom info =
      {[ "identifiers"; "connections"; "name"; "manufacturer"; "model" ]} /\
    info !! "identifiers" =
      Some (TupleSet {[ ("hatchrest", Some "aa:bb:cc:dd:ee:ff") ]}) /\
    info !! "connections" =
      Some (TupleSet {[ (CONNECTION_BLUETOOTH, Some "AA:BB:CC:DD:EE:FF") ]}) /\
    info !! "name" = Some (Str (dev_name (rest_store !!! _device rest_entity))) /\
    info !! "manufacturer" = Some (Str (Some "Hatch")) /\
    info !! "model" = Some (Str (Some "Rest")).
Proof.
  split; [vm_compute; reflexivity|]. split; [discriminate|].
  split; [reflexivity|]. split; [discriminate|].
  apply (device_info_descriptor "hatchrest" rest_entity rest_store
           "AA:BB:CC:DD:EE:FF" "aa:bb:cc:dd:ee:ff");
    [vm_compute; reflexivity | discriminate | reflexivity | discriminate].
Defined.

Lemma setup_device_not_found_witness :
  entry_data rest_entry !! CONF_ADDRESS = Some "aa:bb:cc:dd:ee:ff" /\
  async_ble_device_from_address hass_without_device
    (upper "aa:bb:cc:dd:ee:ff") = None /\
  exists failure,
    async_setup_entry "hatchrest" connect_ok hass_without_device rest_store
      rest_entry = (Raise failure, hass_without_device, rest_store) /\
    exc_class failure = ConfigEntryNotReady /\
    contains (exc_msg failure) "aa:bb:cc:dd:ee:ff".
Proof.
  split; [vm_compute; reflexivity|]. split; [vm_compute; reflexivity|].
  apply (setup_device_not_found "hatchrest" connect_ok hass_without_device
           rest_store rest_entry "aa:bb:cc:dd:ee:ff");
    vm_compute; reflexivity.
Defined.

Lemma setup_discovers_upper_address_witness :
  entry_data rest_entry !! CONF_ADDRESS = Some "aa:bb:cc:dd:ee:ff" /\
  hass_bluetooth hass_with_device !! upper "aa:bb:cc:dd:ee:ff" = Some rest_ble /\
  (async_setup_entry "hatchrest" connect_ok hass_with_device rest_store
     rest_entry).1.1 = Return true.
Proof.
  split; [vm_compute; reflexivity|]. split; [vm_compute; reflexivity|].
  eapply (setup_discovers_upper_address "hatchrest" connect_ok hass_with_device
            rest_store rest_entry "aa:bb:cc:dd:ee:ff");
    [vm_compute; reflexivity | vm_compute; reflexivity | reflexivity].
Defined.

(** ** The further properties at the sample device *)

Lemma update_failed_message_identifies_kind_witness :
  rr_raised (refresh_raising timed_out) = Some timed_out /\
  raise_from UpdateFailed
    "Connection timed out while fetching data from device" timed_out
    <> timed_out /\
  exc_msg (raise_from UpdateFailed
             "Connection timed out while fetching data from device" timed_out)
    = "Connection timed out while fetching data from device" /\
  isinstance timed_out TimeoutError = true.
Proof.
  split; [reflexivity|]. split; [discriminate|].
  destruct (update_failed_message_identifies_kind rest_coordinator rest_store
              (refresh_raising timed_out) timed_out
              (raise_from UpdateFailed
                 "Connection timed out while fetching data from device"
                 timed_out))
    as (_ & _ & [[Hmsg Hkind]|[Hmsg _]]);
    [reflexivity | reflexivity | discriminate | | discriminate Hmsg].
  split; [exact Hmsg | exact Hkind].
Defined.

Lemma device_info_never_asserts_witness :
  device_info "hatchrest" anonymous_entity rest_store =
    Raise (PyExc ValueError "Missing bluetooth address for hatch rest device"
             None) /\
  isinstance (PyExc ValueError "Missing bluetooth address for hatch rest device"
                None) AssertionError = false.
Proof.
  split; [vm_compute; reflexivity|].
  apply (device_info_never_asserts "hatchrest" anonymous_entity rest_store).
  vm_compute; reflexivity.
Defined.

Lemma setup_failure_changes_nothing_witness :
  (async_setup_entry "hatchrest" connect_failing hass_with_device rest_store
     rest_entry).1.1 = Raise bleak_failed /\
  async_setup_entry "hatchrest" connect_failing hass_with_device rest_store
    rest_entry = (Raise bleak_failed, hass_with_device, rest_store).
Proof.
  split; [vm_compute; reflexivity|].
  apply (setup_failure_changes_nothing "hatchrest" connect_failing
           hass_with_device rest_store rest_entry bleak_failed).
  vm_compute; reflexivity.
Defined.

Lemma setup_failure_inv_witness :
  (async_setup_entry "hatchrest" connect_failing hass_with_device rest_store
     rest_entry).1.1 = Raise bleak_failed /\
  ((entry_data rest_entry !! CONF_ADDRESS = None /\
    exc_class bleak_failed = KeyError) \/
   (exists address,
      entry_data rest_entry !! CONF_ADDRESS = Some address /\
      hass_bluetooth hass_with_device !! upper address = None /\
      exc_class bleak_failed = ConfigEntryNotReady) \/
   (exists address ble,
      entry_data rest_entry !! CONF_ADDRESS = Some address /\
      hass_bluetooth hass_with_device !! upper address = Some ble /\
      connect_failing ble false = Raise bleak_failed)).
Proof.
  split; [vm_compute; reflexivity|].
  apply (setup_failure_inv "hatchrest" connect_failing hass_with_device
           rest_store rest_entry bleak_failed).
  vm_compute; reflexivity.
Defined.

Lemma setup_success_inv_witness :
  (async_setup_entry "hatchrest" connect_ok hass_with_device rest_store
     rest_entry).1.1 = Return true /\
  true = true /\
  exists address ble handle,
    entry_data rest_entry !! CONF_ADDRESS = Some address /\
    hass_bluetooth hass_with_device !! upper address = Some ble /\
    connect_ok ble false = Return handle.
Proof.
  split; [vm_compute; reflexivity|].
  apply (setup_success_inv "hatchrest" connect_ok hass_with_device rest_store
           rest_entry true).
  vm_compute; reflexivity.
Defined.

Lemma setup_success_frame_witness :
  (async_setup_entry "hatchrest" connect_ok hass_with_device rest_store
     rest_entry).1.1 = Return true /\
  (forall l handle, rest_store !! l = Some handle ->
     store_set_up !! l = Some handle) /\
  hass_bluetooth hass_set_up = hass_bluetooth hass_with_device /\
  hass_platforms hass_set_up !! entry_id rest_entry = Some PLATFORMS.
Proof.
  split; [vm_compute; reflexivity|].
  destruct (setup_success_frame "hatchrest" connect_ok hass_with_device
              rest_store rest_entry true) as (_ & _ & Hstore & Hble & Hplat);
    [vm_compute; reflexivity|].
  split; [exact Hstore|]. split; [exact Hble | exact Hplat].
Defined.

Lemma setup_two_entries_witness :
  entry_id rest_entry <> entry_id second_entry /\
  (async_setup_entry "hatchrest" connect_ok hass_with_device rest_store
     rest_entry).1.1 = Return true /\
  (async_setup_entry "hatchrest" connect_ok hass_set_up store_set_up
     second_entry).1.1 = Return true /\
  exists c1 c2,
    hass_data (async_setup_entry "hatchrest" connect_ok hass_set_up
                 store_set_up second_entry).1.2
      !! "hatchrest" ≫= (.!! entry_id rest_entry) = Some c1 /\
    hass_data (async_setup_entry "hatchrest" connect_ok hass_set_up
                 store_set_up second_entry).1.2
      !! "hatchrest" ≫= (.!! entry_id second_entry) = Some c2 /\
    co_device c1 <> co_device c2.
Proof.
  split; [discriminate|].
  split; [vm_compute; reflexivity|]. split; [vm_compute; reflexivity|].
  destruct (setup_two_entries "hatchrest" connect_ok hass_with_device
              rest_store rest_entry second_entry true true)
    as (c1 & c2 & H1 & H2 & _ & _ & Hne & _);
    [discriminate | vm_compute; reflexivity | vm_compute; reflexivity |].
  exists c1, c2. split; [exact H1|]. split; [exact H2 | exact Hne].
Defined.

Lemma setup_then_device_info_witness :
  entry_data anonymous_entry !! CONF_ADDRESS = Some "aa:bb:cc:dd:ee:ff" /\
  hass_bluetooth hass_with_device !! upper "aa:bb:cc:dd:ee:ff" = Some rest_ble /\
  exists c,
    hass_data (async_setup_entry "hatchrest" connect_ok hass_with_device
                 rest_store anonymous_entry).1.2
      !! "hatchrest" ≫= (.!! entry_id anonymous_entry) = Some c /\
    device_info "hatchrest" (HatchRestEntity__init__ c)
      (async_setup_entry "hatchrest" connect_ok hass_with_device rest_store
         anonymous_entry).2 =
      Raise (PyExc ValueError "Missing bluetooth address for hatch rest device"
               None).
Proof.
  split; [vm_compute; reflexivity|]. split; [vm_compute; reflexivity|].
  destruct (setup_then_device_info "hatchrest" connect_ok hass_with_device
              rest_store anonymous_entry "aa:bb:cc:dd:ee:ff" rest_ble
              {| dev_name := ble_name rest_ble;
                 dev_address := Some (ble_address rest_ble);
                 dev_state := 0 |})
    as (c & Hreg & _ & Hinfo);
    [vm_compute; reflexivity | vm_compute; reflexivity | reflexivity |].
  exists c. split; [exact Hreg | exact Hinfo].
Defined.

Lemma setup_case_insensitive_witness :
  entry_id rest_entry = entry_id mixed_case_entry /\
  entry_unique_id rest_entry = entry_unique_id mixed_case_entry /\
  entry_data rest_entry !! CONF_ADDRESS = Some "aa:bb:cc:dd:ee:ff" /\
  entry_data mixed_case_entry !! CONF_ADDRESS = Some "aA:bB:cC:dD:eE:fF" /\
  upper "aa:bb:cc:dd:ee:ff" = upper "aA:bB:cC:dD:eE:fF" /\
  (async_setup_entry "hatchrest" connect_ok hass_with_device rest_store
     rest_entry).1.2 =
  (async_setup_entry "hatchrest" connect_ok hass_with_device rest_store
     mixed_case_entry).1.2.
Proof.
  split; [reflexivity|]. split; [reflexivity|].
  split; [vm_compute; reflexivity|]. split; [vm_compute; reflexivity|].
  split; [reflexivity|].
  apply (setup_case_insensitive "hatchrest" connect_ok hass_with_device
           rest_store rest_entry mixed_case_entry
           "aa:bb:cc:dd:ee:ff" "aA:bB:cC:dD:eE:fF");
    [reflexivity | reflexivity | vm_compute; reflexivity
    | vm_compute; reflexivity | reflexivity].
Defined.

Lemma unload_removes_only_entry_witness :
  (exists c,
     hass_data hass_set_up !! "hatchrest" ≫= (.!! entry_id rest_entry) = Some c) /\
  (async_unload_entry "hatchrest" true hass_set_up rest_entry).1 = Return true /\
  hass_data (async_unload_entry "hatchrest" true hass_set_up rest_entry).2
    !! "hatchrest" ≫= (.!! entry_id rest_entry) = None.
Proof.
  split; [eexists; vm_compute; reflexivity|].
  destruct (unload_removes_only_entry "hatchrest" hass_set_up rest_entry
              (HatchRestCoordinator__init__ (Some "aa:bb:cc:dd:ee:ff")
                 (fresh (dom rest_store))))
    as (Hret & Hgone & _); [vm_compute; reflexivity|].
  split; [exact Hret | exact Hgone].
Defined.

Lemma unload_returns_host_answer_witness :
  (async_unload_entry "hatchrest" false hass_set_up rest_entry).1 = Return false /\
  false = false /\
  (async_unload_entry "hatchrest" false hass_set_up rest_entry).2 = hass_set_up.
Proof.
  split; [reflexivity|].
  apply (unload_returns_host_answer "hatchrest" false hass_set_up rest_entry
           false).
  reflexivity.
Defined.

Lemma setup_then_unload_witness :
  (async_setup_entry "hatchrest" connect_ok hass_with_device rest_store
     rest_entry).1.1 = Return true /\
  (async_unload_entry "hatchrest" true hass_set_up rest_entry).1 = Return true /\
  hass_data (async_unload_entry "hatchrest" true hass_set_up rest_entry).2
    !! "hatchrest" =
    Some (delete (entry_id rest_entry)
            (default ∅ (hass_data hass_with_device !! "hatchrest"))).
Proof.
  split; [vm_compute; reflexivity|].
  destruct (setup_then_unload "hatchrest" connect_ok hass_with_device
              rest_store rest_entry true) as (Hret & Hdata & _);
    [vm_compute; reflexivity|].
  split; [exact Hret | exact Hdata].
Defined.

Lemma unload_twice_raises_witness :
  (exists c,
     hass_data hass_set_up !! "hatchrest" ≫= (.!! entry_id rest_entry) = Some c) /\
  (async_unload_entry "hatchrest" true hass_set_up rest_entry).1 = Return true /\
  exists e,
    (async_unload_entry "hatchrest" true
       (async_unload_entry "hatchrest" true hass_set_up rest_entry).2
       rest_entry).1 = Raise e /\
    exc_class e = KeyError.
Proof.
  split; [eexists; vm_compute; reflexivity|].
  destruct (unload_twice_raises "hatchrest" hass_set_up rest_entry
              (HatchRestCoordinator__init__ (Some "aa:bb:cc:dd:ee:ff")
                 (fresh (dom rest_store))))
    as (Hret & e & Hout & Hclass & _); [vm_compute; reflexivity|].
  split; [exact Hret|]. exists e. split; [by rewrite Hout | exact Hclass].
Defined.
